(** * NLP.py: fairy-tale narration demo -- shallow embedding and checked properties

    The development follows [src/NLP.py]:
    - section 2 of the script, [THEME_MUSIC_MAP] and [pick_background_music];
    - section 3, [generate_fairy_tale];
    - section 4, [text_to_speech_coqui];
    - section 5, [mix_audio_files].

    Python values are modelled as follows.  A [str] is the list of its code
    points, [bytes] is a list of bytes, a duration is a number of
    milliseconds ([nat], as [len] of an audio segment is).  The Streamlit
    session, the progress bar, the files on disk and the requests sent to the
    text service form an explicit [World] threaded through a small state and
    exception monad.  The audio library, the text service and the speech
    engine are interfaces ([AudioLib], [Services]): the script only calls
    them. *)

From Stdlib Require Import QArith Qround.
From stdpp Require Import base list gmap strings.

(** ** Python strings *)

Definition str := list N.
Definition bytes := list Byte.byte.

(** An ASCII literal of the script as a [str]. *)
Definition py (s : string) : str :=
  Ascii.N_of_ascii <$> String.list_ascii_of_string s.

(** The line feed written [\n] in the script. *)
Definition nl : str := [10%N].

(** [s.startswith(k)] *)
Fixpoint startswith (k s : str) : bool :=
  match k, s with
  | [], _ => true
  | _ :: _, [] => false
  | a :: k', b :: s' => (a =? b)%N && startswith k' s'
  end.

(** [k in s] on strings: [k] occurs in [s] as a contiguous substring. *)
Fixpoint contains (k s : str) : bool :=
  startswith k s ||
  match s with
  | [] => false
  | _ :: s' => contains k s'
  end.

(** The specification of [in]: some text before, the key, some text after. *)
Definition substring_of (k s : str) : Prop :=
  ∃ pre post, s = pre ++ k ++ post.

(** ** 2) Background music selection *)

(** The dict literal, in insertion order (the order [items()] iterates in). *)
Definition THEME_MUSIC_MAP : list (str * str) :=
  [ (py "space",     py "background_sound/space.wav");
    (py "fantastic", py "background_sound/fantasy.wav");
    (py "medieval",  py "background_sound/medieval.wav");
    (py "horror",    py "background_sound/horror.wav");
    (py "sea",       py "background_sound/sea.wav");
    (py "sci-fi",    py "background_sound/sci-fi.wav");
    (py "forest",    py "background_sound/day_forest.wav") ].

Definition DEFAULT_BG_MUSIC : str := py "background_sound/fairy_tail_slow.wav".

(** The [for key, music_file in ...items()] loop with its early [return];
    falling out of the loop returns [DEFAULT_BG_MUSIC]. *)
Fixpoint scan_items (items : list (str * str)) (theme_lower : str) : str :=
  match items with
  | [] => DEFAULT_BG_MUSIC
  | (key, music_file) :: rest =>
      if contains key theme_lower then music_file
      else scan_items rest theme_lower
  end.

Section ThemeResolver.
(** [str.lower] is Python's Unicode lower-casing (it is not a map on single
    code points: it knows the final sigma and expands some letters), so it
    is taken as given. *)
Variable lower : str → str.

Definition pick_background_music (theme : str) : str :=
  let theme_lower := lower theme in
  scan_items THEME_MUSIC_MAP theme_lower.
End ThemeResolver.

(** [str.lower] on ASCII text, to run the resolver on examples. *)
Definition ascii_lower_char (c : N) : N :=
  if ((65 <=? c) && (c <=? 90))%N then (c + 32)%N else c.
Definition ascii_lower (s : str) : str := ascii_lower_char <$> s.


(** ** The world the script runs in *)

(** The keyword arguments of [openai.chat.completions.create] that vary;
    the sampling parameters are constants of the script. *)
Record ChatRequest := mkChatRequest {
  chat_model : str;
  chat_system : str;      (* content of the "system" message *)
  chat_user : str;        (* content of the "user" message *)
}.

Record World := mkWorld {
  session_feedback : option str;   (* st.session_state["feedback"] *)
  progress_log : list nat;         (* arguments of progress_bar.progress, latest first *)
  error_log : list str;            (* messages given to st.error, latest first *)
  disk : gmap str bytes;           (* the named files, background assets among them *)
  temp_files : gmap nat bytes;     (* files made by tempfile, by serial number *)
  chat_log : list ChatRequest;     (* requests sent to the text service, latest first *)
}.

(** The exceptions met in the script.  [DecodeError] is raised by the audio
    library on data it cannot decode, [AssetNotFoundError] by opening a path
    that does not exist, [ZeroDivisionError] by [//]; [ServiceError] stands
    for whatever the remote text service or the speech engine raises. *)
Inductive Exn :=
  | DecodeError
  | AssetNotFoundError
  | ZeroDivisionError
  | ServiceError (msg : str).

(** [str(e)] as interpolated into the messages for [st.error]; the wording
    of the messages of built-in and library exceptions is a stand-in. *)
Definition exn_text (e : Exn) : str :=
  match e with
  | DecodeError => py "Decoding failed"
  | AssetNotFoundError => py "No such file or directory"
  | ZeroDivisionError => py "integer division or modulo by zero"
  | ServiceError msg => msg
  end.

Inductive Outcome (A : Type) :=
  | Returned (a : A)
  | Raised (e : Exn).
Arguments Returned {A} a.
Arguments Raised {A} e.

(** State and exceptions: effects made before an exception is raised stay. *)
Definition M (A : Type) : Type := World → Outcome A * World.

Definition ret {A} (a : A) : M A := λ w, (Returned a, w).
Definition raise {A} (e : Exn) : M A := λ w, (Raised e, w).
Definition bind {A B} (c : M A) (k : A → M B) : M B :=
  λ w, match c w with
       | (Returned a, w') => k a w'
       | (Raised e, w') => (Raised e, w')
       end.
(** [try: body  except Exception as e: handler e] *)
Definition try_except {A} (body : M A) (handler : Exn → M A) : M A :=
  λ w, match body w with
       | (Returned a, w') => (Returned a, w')
       | (Raised e, w') => handler e w'
       end.
Definition lift {A} (o : Outcome A) : M A := λ w, (o, w).

(** The monad operations under stdpp's notations [x ← c; k] and [c;; k]. *)
Global Instance M_ret : MRet M := @ret.
Global Instance M_bind : MBind M := λ A B k c, bind c k.

(** [st.session_state["feedback"]] *)
Definition read_feedback : M (option str) := λ w, (Returned (session_feedback w), w).

(** [progress_bar.progress(n)] *)
Definition progress (n : nat) : M unit :=
  λ w, (Returned (),
        mkWorld (session_feedback w) (n :: progress_log w) (error_log w)
                (disk w) (temp_files w) (chat_log w)).

(** [st.error(msg)] *)
Definition st_error (msg : str) : M unit :=
  λ w, (Returned (),
        mkWorld (session_feedback w) (progress_log w) (msg :: error_log w)
                (disk w) (temp_files w) (chat_log w)).

(** Opening a named file for reading. *)
Definition read_file (path : str) : M bytes :=
  λ w, match disk w !! path with
       | Some data => (Returned data, w)
       | None => (Raised AssetNotFoundError, w)
       end.

(** [tempfile.NamedTemporaryFile(suffix=".wav", delete=False)]: a new, empty
    file under a name not in use; leaving the [with] block closes it and,
    with [delete=False], leaves it on disk. *)
Definition NamedTemporaryFile : M nat :=
  λ w, let name := fresh (dom (temp_files w)) in
       (Returned name,
        mkWorld (session_feedback w) (progress_log w) (error_log w)
                (disk w) (<[name := []]> (temp_files w)) (chat_log w)).

(** Writing a temporary file by name. *)
Definition write_temp (name : nat) (data : bytes) : M unit :=
  λ w, (Returned (),
        mkWorld (session_feedback w) (progress_log w) (error_log w)
                (disk w) (<[name := data]> (temp_files w)) (chat_log w)).

(** Recording a request handed to the text service. *)
Definition log_request (r : ChatRequest) : M unit :=
  λ w, (Returned (),
        mkWorld (session_feedback w) (progress_log w) (error_log w)
                (disk w) (temp_files w) (r :: chat_log w)).

(** [a // b] on non-negative integers. *)
Definition floordiv (a b : nat) : M nat :=
  if (b =? 0)%nat then raise ZeroDivisionError else ret (a / b)%nat.

(** ** The collaborators *)

(** The audio library as the script uses it ([AudioSegment]).  Durations
    and positions are in milliseconds. *)
Class AudioLib := {
  AudioSegment : Type;
  (** [AudioSegment.from_file(f, format=...)] on the content of [f];
      [None] when the content cannot be decoded. *)
  from_file : option str → bytes → option AudioSegment;
  (** [seg.export(out, format="wav")] and the [out.read()] that follows:
      the bytes written to the buffer. *)
  export : AudioSegment → bytes;
  (** [len(seg)] *)
  len : AudioSegment → nat;
  (** [seg * n] *)
  seg_mul : AudioSegment → nat → AudioSegment;
  (** [seg[:ms]] *)
  seg_slice_to : AudioSegment → nat → AudioSegment;
  (** [seg.fade_out(ms)], for a duration [ms] that is not negative *)
  fade_out : AudioSegment → nat → AudioSegment;
  (** [seg + dB] *)
  apply_gain : AudioSegment → Q → AudioSegment;
  (** [seg.overlay(other, position=ms)] *)
  overlay : AudioSegment → AudioSegment → nat → AudioSegment;
}.

(** What is handed to the speech engine as [speaker_wav]. *)
Inductive SpeakerWav :=
  | TempFile (name : nat)          (* tmp_wav.name *)
  | GivenPath (p : option str).    (* the argument itself, a path or None *)

(** The text service and the speech engine. *)
Class Services := {
  (** [openai.chat.completions.create(...)] down to
      [response.choices[0].message.content] *)
  chat_completions_create : ChatRequest → Outcome str;
  (** [TTS(model_name=...)] *)
  TTS : str → Outcome unit;
  (** [tts.tts_to_file(text, speaker_wav, file_path=buffer, language)]:
      the bytes left in the buffer *)
  tts_to_file : str → SpeakerWav → str → Outcome bytes;
}.

(** The [voice_sample_path] argument: a [BytesIO] (an upload) or not. *)
Inductive VoiceSample :=
  | BytesIO (data : bytes)
  | NotBytesIO (p : option str).

(** ** 3) Fairy tale generation *)

(** In the three functions below the [with st.spinner(...)] blocks show a
    message while they run and change nothing; the progress bar passed as an
    argument is the one of the world. *)

(** The literal parts of the system message. *)
Definition system_template (language_code : str) : str :=
  py "You are a creative AI specialized in crafting original fairy tales. "
  ++ py "Write a complete story with a clear beginning, middle, and end. "
  ++ py "It should be relatively small, around 1000 words. "
  ++ py "Use rich detail, do not end abruptly, and conclude with a final resolution. "
  ++ py "Write the story in " ++ language_code ++ py " language." ++ nl.

Definition like_note : str :=
  py "The user liked your previous story. Maintain or enhance that appealing style/tone." ++ nl.

Definition dislike_note : str :=
  py "The user disliked your previous story. Try a different approach or style." ++ nl.

Section Script.
Context `{!AudioLib} `{!Services}.

Definition generate_fairy_tale
    (scenario main_character themes language_code : str) : M (option str) :=
  fb ← read_feedback;
  let feedback_note :=
    if decide (fb = Some (py "like")) then like_note
    else if decide (fb = Some (py "dislike")) then dislike_note
    else [] in
  let system_message := system_template language_code ++ feedback_note in
  let user_message :=
    py "Initial Scenario: " ++ scenario ++ nl
    ++ py "Main Character: " ++ main_character ++ nl
    ++ py "Themes: " ++ themes ++ nl ++ nl
    ++ py "Please write the fairy tale using these elements, up to around 1000 words, ending conclusively." in
  try_except
    (progress 33;;
     let request := mkChatRequest (py "gpt-4") system_message user_message in
     log_request request;;
     response ← lift (chat_completions_create request);
     progress 66;;
     mret (Some response))
    (λ e,
     st_error (py "An error occurred while generating the fairy tale: " ++ exn_text e);;
     mret None).

(** ** 4) TTS synthesis *)

(** The upload is read from its start ([seek(0)]); making and writing the
    temporary file is taken to succeed. *)
Definition text_to_speech_coqui
    (story_text language_code : str) (voice_sample_path : VoiceSample)
    : M (option bytes) :=
  (* "Now run Coqui TTS": the last block of the function *)
  let run_tts (speaker_wav_path : SpeakerWav) : M (option bytes) :=
    audio ← lift (tts_to_file story_text speaker_wav_path language_code);
    progress 90;;
    mret (Some audio) in
  try_except
    (let model_name := py "tts_models/multilingual/multi-dataset/xtts_v2" in
     lift (TTS model_name);;
     progress 75;;
     match voice_sample_path with
     | BytesIO data =>
         match from_file (Some (py "wav")) data with
         | None =>
             st_error (py "Error reading uploaded WAV file: " ++ exn_text DecodeError);;
             mret None
         | Some audio_seg =>
             tmp_wav ← NamedTemporaryFile;
             write_temp tmp_wav (export audio_seg);;
             run_tts (TempFile tmp_wav)
         end
     | NotBytesIO p => run_tts (GivenPath p)
     end)
    (λ e,
     st_error (py "An error occurred during TTS: " ++ exn_text e);;
     mret None).

(** ** 5) Mixing narration + background *)

Definition mix_audio_files
    (narration_data : bytes) (background_path : str)
    (music_volume_db : Q) (fade_out_ms : nat) : M bytes :=
  narration ← lift (match from_file (Some (py "wav")) narration_data with
                    | Some seg => Returned seg
                    | None => Raised DecodeError
                    end);
  let narration_duration := len narration in
  background_data ← read_file background_path;
  background ← lift (match from_file None background_data with
                     | Some seg => Returned seg
                     | None => Raised DecodeError
                     end);
  background ←
    (if (len background <? narration_duration)%nat then
       q ← floordiv narration_duration (len background);
       let times_to_repeat := (q + 1)%nat in
       mret (seg_mul background times_to_repeat)
     else mret background);
  let background := fade_out (seg_slice_to background narration_duration) fade_out_ms in
  let background := apply_gain background music_volume_db in
  let final_mix := overlay background narration 0 in
  let out_buffer := export final_mix in
  progress 100;;
  mret out_buffer.
End Script.

(** Lines 172 to 174 as one expression: the background, looped or not, is
    cut to the narration's duration, faded, attenuated, and the narration is
    laid over it from position 0. *)
Definition mixed `{!AudioLib} (narration looped : AudioSegment)
    (music_volume_db : Q) (fade_out_ms : nat) : AudioSegment :=
  overlay
    (apply_gain (fade_out (seg_slice_to looped (len narration)) fade_out_ms)
                music_volume_db)
    narration 0.

(** The defaults of [mix_audio_files], which [main] relies on. *)
Definition default_music_volume_db : Q := -15.
Definition default_fade_out_ms : nat := 3000.

(** The cleanup asked of the narration requester, in the spec's words: a
    temporary file made during a run is gone when the run is over, so no name
    that was free before the run is taken after it. *)
Definition temp_files_cleaned_up `{!AudioLib} `{!Services}
    (story_text language_code : str) (voice_sample_path : VoiceSample)
    (w : World) : Prop :=
  ∀ name,
    temp_files w !! name = None →
    temp_files (text_to_speech_coqui story_text language_code voice_sample_path w).2
      !! name = None.

(** ** The contract of the audio library *)

(** Modelled from the spec: the audio library ([AudioSegment] of the
    imported package) is not part of the repository.  Its contract is the
    spec's description of the steps of the mixer (4.2, steps 3 to 8):
    repeating concatenates whole copies, trimming keeps at most the asked
    number of milliseconds, fading and gain work in place on the buffer, the
    overlay has the extent of the buffer it is laid on, and what is encoded
    decodes again to the same duration. *)
Class AudioLaws (L : AudioLib) : Prop := {
  len_mul : ∀ (s : AudioSegment) (n : nat), len (seg_mul s n) = n * len s;
  len_slice_to : ∀ (s : AudioSegment) (ms : nat), len (seg_slice_to s ms) = ms `min` len s;
  len_fade_out : ∀ (s : AudioSegment) (ms : nat), len (fade_out s ms) = len s;
  len_apply_gain : ∀ (s : AudioSegment) (db : Q), len (apply_gain s db) = len s;
  len_overlay : ∀ (s other : AudioSegment) (position : nat),
    len (overlay s other position) = len s;
  export_decodes : ∀ (s : AudioSegment),
    ∃ s', from_file (Some (py "wav")) (export s) = Some s' ∧ len s' = len s;
}.

(** ** A reference audio library *)

Module RefAudio.

(** Modelled from the spec: the operations of the absent audio library, on
    buffers of signed 16-bit samples, one sample per millisecond.  The
    container is reduced to the samples, two bytes each, low byte first. *)
Abbreviation Segment := (list Z).

(** The valid range of a signed 16-bit sample. *)
Definition saturate (x : Z) : Z := Z.max (-32768) (Z.min 32767 x).

Definition byte_of (z : Z) : Byte.byte :=
  default Byte.x00 (Byte.of_N (Z.to_N z)).

Definition encode_sample (x : Z) : bytes :=
  let u := ((saturate x) `mod` 65536)%Z in
  [byte_of (u `mod` 256); byte_of (u `div` 256)].

Definition sample_of (lo hi : Byte.byte) : Z :=
  let u := (Z.of_N (Byte.to_N lo) + 256 * Z.of_N (Byte.to_N hi))%Z in
  if (u <? 32768)%Z then u else (u - 65536)%Z.

Definition encode (s : Segment) : bytes := s ≫= encode_sample.

Fixpoint decode (data : bytes) : option Segment :=
  match data with
  | [] => Some []
  | [_] => None
  | lo :: hi :: rest => s ← decode rest; Some (sample_of lo hi :: s)
  end.

(** Modelled from the spec: the library's [seg * n], whole copies with
    nothing between them. *)
Definition repeat_segment (s : Segment) (n : nat) : Segment :=
  concat (replicate n s).

(** Inside a fade of [f] milliseconds the sample at offset [j] keeps
    [(f - j) / f] of its amplitude. *)
Definition ramp (f j : nat) (x : Z) : Z :=
  ((x * Z.of_nat (f - j)) `div` Z.of_nat f)%Z.

(** Modelled from the spec: the library's [fade_out], a linear fade to
    silence over the final [ms] milliseconds of the buffer; a fade longer
    than the buffer spans the whole buffer (it is clamped, it is no error). *)
Definition fade_out_segment (s : Segment) (ms : nat) : Segment :=
  let f := ms `min` length s in
  take (length s - f) s ++ imap (ramp f) (drop (length s - f) s).

(** The linear multiplier of a gain in decibels.  The library computes
    [10^(dB/20)] in floating point; here it is the power of ten below it,
    which is exact on multiples of 20 dB. *)
Definition db_to_ratio (db : Q) : Q :=
  let e := Qfloor (db / 20) in
  if (0 <=? e)%Z then inject_Z (10 ^ e) else 1 / inject_Z (10 ^ (- e)).

(** Modelled from the spec: the library's [seg + dB], every sample times the
    linear multiplier of the gain. *)
Definition gain_segment (s : Segment) (db : Q) : Segment :=
  (λ x, saturate (Qfloor (inject_Z x * db_to_ratio db))) <$> s.

(** Modelled from the spec: the library's [overlay], sample-by-sample sums
    clipped to the sample range, from [position] on; the result has the
    extent of [s]. *)
Fixpoint add_samples (s other : Segment) : Segment :=
  match s, other with
  | [], _ => []
  | _, [] => s
  | x :: s', y :: other' => saturate (x + y) :: add_samples s' other'
  end.

Definition overlay_segment (s other : Segment) (position : nat) : Segment :=
  take position s ++ add_samples (drop position s) other.

Definition lib : AudioLib := {|
  AudioSegment := Segment;
  from_file := λ _ data, decode data;
  export := encode;
  len := length;
  seg_mul := repeat_segment;
  seg_slice_to := λ s ms, take ms s;
  fade_out := fade_out_segment;
  apply_gain := gain_segment;
  overlay := overlay_segment;
|}.

End RefAudio.

(** ** Stand-ins for the remote services, to run the script on examples *)

Module Stub.
(** A text service that answers with the user prompt, a speech engine that
    answers with two bytes of audio. *)
Definition working : Services := {|
  chat_completions_create := λ r, Returned (chat_user r);
  TTS := λ _, Returned ();
  tts_to_file := λ _ _ _, Returned [Byte.x01; Byte.x00];
|}.

(** The same, with a speech engine that fails at synthesis. *)
Definition failing_synthesis : Services := {|
  chat_completions_create := λ r, Returned (chat_user r);
  TTS := λ _, Returned ();
  tts_to_file := λ _ _ _, Raised (ServiceError (py "synthesis failed"));
|}.

(** A world with a background asset of two milliseconds and one of none. *)
Definition world : World := {|
  session_feedback := None;
  progress_log := [];
  error_log := [];
  disk := {[ py "background_sound/space.wav" := RefAudio.encode [100; 200]%Z;
             py "background_sound/silence.wav" := RefAudio.encode [] ]};
  temp_files := ∅;
  chat_log := [];
|}.
End Stub.

(** ** 1) Supported languages *)

(** The dict literal, in insertion order. *)
Definition LANGUAGE_MAP : list (str * str) :=
  [ (py "English", py "en");
    (py "Russian", py "ru");
    (py "French",  py "fr");
    (py "Spanish", py "es");
    (py "German",  py "de") ].

(** [d[k]] on a dict given by its items; [None] stands for the KeyError. *)
Fixpoint dict_get {V} (d : list (str * V)) (k : str) : option V :=
  match d with
  | [] => None
  | (k', v) :: rest => if decide (k' = k) then Some v else dict_get rest k
  end.

(** [list(d.keys())] *)
Definition dict_keys {V} (d : list (str * V)) : list str := d.*1.

(** ** 6) Streamlit app *)

(** What one run of the script reads from the widgets.  [st.selectbox]
    returns one of the options it is given, here the keys of [LANGUAGE_MAP]:
    the choice is kept as its position among them ([in_language_ok] below
    says that it is one).  The three [st.button] calls return whether the
    button was pressed. *)
Record Inputs := mkInputs {
  in_language : nat;              (* position of the choice in the selectbox *)
  in_scenario : str;
  in_main_character : str;
  in_selected_theme : str;        (* st.radio *)
  in_custom_theme : str;          (* the text input shown for "Other" *)
  in_voice_file : option bytes;   (* st.file_uploader: the upload's content *)
  in_generate : bool;             (* st.button("Generate Fairy Tale") *)
  in_like : bool;                 (* st.button(... "Like") *)
  in_dislike : bool;              (* st.button(... "Dislike") *)
}.

Definition in_language_ok (i : Inputs) : Prop :=
  in_language i < length (dict_keys LANGUAGE_MAP).

(** The options of the theme radio. *)
Definition theme_options : list str :=
  [ py "space"; py "fantastic"; py "medieval"; py "horror"; py "sea";
    py "sci-fi"; py "forest"; py "Other" ].

(** What the script puts on the page, latest first. *)
Inductive Shown :=
  | Title (text : str)
  | Subheader (text : str)
  | Write (text : str)
  | Audio (data : bytes)
  | DownloadButton (label : str) (data : bytes) (file_name : str)
  | Success (text : str)
  | Warning (text : str).

(** The world together with the page of the current run. *)
Record App := mkApp {
  app_world : World;
  app_page : list Shown;
}.

Definition MA (A : Type) : Type := App → Outcome A * App.

Definition retA {A} (a : A) : MA A := λ s, (Returned a, s).
Definition bindA {A B} (c : MA A) (k : A → MA B) : MA B :=
  λ s, match c s with
       | (Returned a, s') => k a s'
       | (Raised e, s') => (Raised e, s')
       end.
Global Instance MA_ret : MRet MA := @retA.
Global Instance MA_bind : MBind MA := λ A B k c, bindA c k.

(** A computation on the world, run inside the app. *)
Definition in_world {A} (c : M A) : MA A :=
  λ s, match c (app_world s) with
       | (o, w') => (o, mkApp w' (app_page s))
       end.

(** [st.title], [st.subheader], [st.write], [st.audio], ... *)
Definition show (x : Shown) : MA unit :=
  λ s, (Returned (), mkApp (app_world s) (x :: app_page s)).

(** [st.session_state["feedback"] = value] *)
Definition set_feedback (value : str) : M unit :=
  λ w, (Returned (),
        mkWorld (Some value) (progress_log w) (error_log w)
                (disk w) (temp_files w) (chat_log w)).

Section App.
Context `{!AudioLib} `{!Services}.
Variable lower : str → str.

(** The two vote buttons below the story (the last block of [main]). *)
Definition vote_buttons (i : Inputs) : MA unit :=
  (if in_like i then
     in_world (set_feedback (py "like"));;
     show (Success (py "You liked this story! Future stories will try to maintain the same style."))
   else mret ());;
  (if in_dislike i then
     in_world (set_feedback (py "dislike"));;
     show (Warning (py "You disliked this story. Future stories will try a different style or tone."))
   else mret ()).

(** One run of the script.  The session's feedback entry exists (the script
    sets it to None at start when it is missing). *)
Definition main (i : Inputs) : MA unit :=
  show (Title (py "Multilingual Fairy Tale Generator with Feedback"));;
  let language := default [] (dict_keys LANGUAGE_MAP !! in_language i) in
  let language_code := default [] (dict_get LANGUAGE_MAP language) in
  let scenario := in_scenario i in
  let main_character := in_main_character i in
  let selected_theme := in_selected_theme i in
  let other_theme :=
    if decide (selected_theme = py "Other") then in_custom_theme i else [] in
  show (Subheader (py "Optional: Upload a Voice Example"));;
  let voice_file := in_voice_file i in
  in_world (progress 0);;
  if in_generate i then
    let final_theme :=
      if decide (selected_theme = py "Other") then other_theme else selected_theme in
    fairy_tale ← in_world
      (generate_fairy_tale scenario main_character final_theme language_code);
    match fairy_tale with
    | Some (c :: rest) =>
        let fairy_tale := c :: rest in
        show (Subheader (py "AI-Generated Fairy Tale (" ++ language ++ py ")"));;
        show (Write fairy_tale);;
        let bg_music_path := pick_background_music lower final_theme in
        let voice_path :=
          match voice_file with
          | Some data => BytesIO data
          | None => NotBytesIO (Some (py "Islam.wav"))
          end in
        narration_data ← in_world
          (text_to_speech_coqui fairy_tale language_code voice_path);
        match narration_data with
        | Some (b :: data) =>
            let narration_data := b :: data in
            final_mix_data ← in_world
              (mix_audio_files narration_data bg_music_path
                 default_music_volume_db default_fade_out_ms);
            show (Subheader (py "Final Narrated Fairy Tale with Background Music"));;
            show (Audio final_mix_data);;
            show (DownloadButton (py "Download Narrated Fairy Tale") final_mix_data
                    (py "narrated_fairy_tale.wav"))
        | _ => mret ()       (* None or b"": falsy *)
        end;;
        vote_buttons i
    | _ => mret ()           (* None or "": falsy *)
    end
  else mret ().
End App.

(** A run of the script starts from an empty page. *)
Definition script `{!AudioLib} `{!Services} (lower : str → str)
    (i : Inputs) (w : World) : Outcome unit * App :=
  main lower i (mkApp w []).

(** Names for what [main] computes from the widgets, to state its
    properties: [final_theme], [language], [language_code]. *)
Definition final_theme_of (i : Inputs) : str :=
  if decide (in_selected_theme i = py "Other") then in_custom_theme i
  else in_selected_theme i.

Definition language_of (i : Inputs) : str :=
  default [] (dict_keys LANGUAGE_MAP !! in_language i).

Definition language_code_of (i : Inputs) : str :=
  default [] (dict_get LANGUAGE_MAP (language_of i)).

(** The feedback value after the two vote buttons: the later assignment, the
    one of the dislike button, wins. *)
Definition voted_feedback (i : Inputs) (before : option str) : option str :=
  if in_dislike i then Some (py "dislike")
  else if in_like i then Some (py "like")
  else before.

(** The feedback hint that [generate_fairy_tale] appends for a feedback value. *)
Definition hint_for (feedback : option str) : str :=
  if decide (feedback = Some (py "like")) then like_note
  else if decide (feedback = Some (py "dislike")) then dislike_note
  else [].

(** More stand-ins, to run the app on examples. *)
Module StubApp.
(** A text service that is down. *)
Definition failing_generation : Services := {|
  chat_completions_create := λ _, Raised (ServiceError (py "service unavailable"));
  TTS := λ _, Returned ();
  tts_to_file := λ _ _ _, Returned [Byte.x01; Byte.x00];
|}.

(** A visitor who picks English and the "space" theme, presses the
    generate button and likes the story. *)
Definition visit : Inputs := {|
  in_language := 0;
  in_scenario := py "a lost key";
  in_main_character := py "Mira";
  in_selected_theme := py "space";
  in_custom_theme := [];
  in_voice_file := None;
  in_generate := true;
  in_like := true;
  in_dislike := false;
|}.

(** The same visitor on a later run in which only a vote button reports a
    press. *)
Definition vote_only : Inputs := {|
  in_language := 0;
  in_scenario := py "a lost key";
  in_main_character := py "Mira";
  in_selected_theme := py "space";
  in_custom_theme := [];
  in_voice_file := None;
  in_generate := false;
  in_like := true;
  in_dislike := false;
|}.

(** A visitor whose theme has no asset on disk. *)
Definition visit_sea : Inputs := {|
  in_language := 2;
  in_scenario := py "a message in a bottle";
  in_main_character := py "Noor";
  in_selected_theme := py "Other";
  in_custom_theme := py "The Open SEA";
  in_voice_file := Some (RefAudio.encode [3; 4]%Z);
  in_generate := true;
  in_like := true;
  in_dislike := false;
|}.
End StubApp.

(** * Properties *)

(** ** Substrings *)

Lemma startswith_prefix (k s : str) :
  startswith k s = true ↔ ∃ post, s = k ++ post.
Proof.
  revert s. induction k as [|a k IH]; intros s; simpl.
  - split; [intros _; by exists s | done].
  - destruct s as [|b s].
    + split; [done | intros [post Hpost]; discriminate].
    + rewrite andb_true_iff, N.eqb_eq, IH. split.
      * intros [-> [post ->]]. by exists post.
      * intros [post Hpost]. injection Hpost as -> ->. eauto.
Qed.

Lemma contains_substring (k s : str) :
  contains k s = true ↔ substring_of k s.
Proof.
  unfold substring_of. induction s as [|b s IH]; simpl.
  - rewrite orb_false_r, startswith_prefix. split.
    + intros [post Hpost]. by exists [], post.
    + intros [pre [post Hs]]. symmetry in Hs.
      apply app_eq_nil in Hs as [-> Hs]. apply app_eq_nil in Hs as [-> ->].
      by exists [].
  - rewrite orb_true_iff, startswith_prefix, IH. split.
    + intros [[post Hpost] | [pre [post Hs]]].
      * by exists [], post.
      * exists (b :: pre), post. by rewrite Hs.
    + intros [[|c pre] [post Hs]].
      * left. by exists post.
      * right. injection Hs as _ Hs. by exists pre, post.
Qed.

Lemma contains_false (k s : str) :
  contains k s = false ↔ ¬ substring_of k s.
Proof. rewrite <- contains_substring. by destruct (contains k s). Qed.

(** The loop returns the file of the first entry whose key occurs. *)
Lemma scan_items_first_match before key music_file after theme_lower :
  substring_of key theme_lower →
  (∀ k f, (k, f) ∈ before → ¬ substring_of k theme_lower) →
  scan_items (before ++ (key, music_file) :: after) theme_lower = music_file.
Proof.
  intros Hkey. induction before as [|[k f] before IH]; intros Hbefore; simpl.
  - apply contains_substring in Hkey. by rewrite Hkey.
  - assert (contains k theme_lower = false) as ->.
    { apply contains_false, (Hbefore k f). left. }
    apply IH. intros k' f' Hin. apply (Hbefore k' f'). by right.
Qed.

Lemma scan_items_no_match items theme_lower :
  (∀ k f, (k, f) ∈ items → ¬ substring_of k theme_lower) →
  scan_items items theme_lower = DEFAULT_BG_MUSIC.
Proof.
  induction items as [|[k f] items IH]; intros Hnone; simpl; [done|].
  assert (contains k theme_lower = false) as ->.
  { apply contains_false, (Hnone k f). left. }
  apply IH. intros k' f' Hin. apply (Hnone k' f'). by right.
Qed.

(** Every key of the table has at least one character. *)
Lemma THEME_MUSIC_MAP_keys_nonempty k f :
  (k, f) ∈ THEME_MUSIC_MAP → k ≠ [].
Proof.
  unfold THEME_MUSIC_MAP. rewrite !elem_of_cons, elem_of_nil.
  intros H. repeat destruct H as [H|H]; try done; by injection H as -> _.
Qed.

(** The scan either stops at a first matching entry or finds none. *)
Lemma scan_items_cases items theme_lower :
  (∃ before key music_file after,
     items = before ++ (key, music_file) :: after
     ∧ substring_of key theme_lower
     ∧ (∀ k f, (k, f) ∈ before → ¬ substring_of k theme_lower)
     ∧ scan_items items theme_lower = music_file)
  ∨ ((∀ k f, (k, f) ∈ items → ¬ substring_of k theme_lower)
     ∧ scan_items items theme_lower = DEFAULT_BG_MUSIC).
Proof.
  induction items as [|[k f] items IH]; simpl.
  - right. split; [|done]. intros k f Hin. by apply elem_of_nil in Hin.
  - destruct (contains k theme_lower) eqn:Hk.
    + left. exists [], k, f, items. split_and!; [done| |..|done].
      * by apply contains_substring.
      * intros k' f' Hin. by apply elem_of_nil in Hin.
    + apply contains_false in Hk.
      destruct IH as [(before & key & mf & after & -> & Hkey & Hbefore & Hres) | [Hnone Hres]].
      * left. exists ((k, f) :: before), key, mf, after. split_and!; [done..| |done].
        intros k' f' Hin. apply elem_of_cons in Hin as [Heq | Hin].
        -- by injection Heq as -> ->.
        -- by apply (Hbefore k' f').
      * right. split; [|done]. intros k' f' Hin.
        apply elem_of_cons in Hin as [Heq | Hin].
        -- by injection Heq as -> ->.
        -- by apply (Hnone k' f').
Qed.

(** C3. For every input string, [pick_background_music] lower-cases the
    input, scans the keyword table in its order and returns the path of the
    first keyword that occurs as a substring of the lowered input; when no
    keyword occurs (as for an input whose lowered form is empty) it returns
    the default path.  One of the two always applies: the function returns a
    path for every input, and being a function of the input string alone it
    has no effect on the world. *)
Theorem pick_background_music_first_match (lower : str → str) (theme : str) :
  (∀ before key music_file after,
     THEME_MUSIC_MAP = before ++ (key, music_file) :: after →
     substring_of key (lower theme) →
     (∀ k f, (k, f) ∈ before → ¬ substring_of k (lower theme)) →
     pick_background_music lower theme = music_file)
  ∧ ((∀ k f, (k, f) ∈ THEME_MUSIC_MAP → ¬ substring_of k (lower theme)) →
     pick_background_music lower theme = DEFAULT_BG_MUSIC)
  ∧ (lower theme = [] → pick_background_music lower theme = DEFAULT_BG_MUSIC)
  ∧ ((∃ before key music_file after,
        THEME_MUSIC_MAP = before ++ (key, music_file) :: after
        ∧ substring_of key (lower theme)
        ∧ (∀ k f, (k, f) ∈ before → ¬ substring_of k (lower theme))
        ∧ pick_background_music lower theme = music_file)
     ∨ ((∀ k f, (k, f) ∈ THEME_MUSIC_MAP → ¬ substring_of k (lower theme))
        ∧ pick_background_music lower theme = DEFAULT_BG_MUSIC)).
Proof.
  unfold pick_background_music. split_and!.
  - intros before key music_file after -> Hkey Hbefore.
    by apply scan_items_first_match.
  - apply scan_items_no_match.
  - intros Hempty. apply scan_items_no_match. intros k f Hin [pre [post Hs]].
    apply THEME_MUSIC_MAP_keys_nonempty in Hin. rewrite Hempty in Hs.
    symmetry in Hs. apply app_eq_nil in Hs as [_ Hs].
    by apply app_eq_nil in Hs as [-> _].
  - apply scan_items_cases.
Qed.

(** The resolver on "Deep SPACE trip": the first entry of the table matches. *)
Lemma pick_background_music_first_match_witness :
  pick_background_music ascii_lower (py "Deep SPACE trip")
  = py "background_sound/space.wav".
Proof.
  apply (proj1 (pick_background_music_first_match ascii_lower (py "Deep SPACE trip"))
           [] (py "space") _ (tail THEME_MUSIC_MAP)).
  - reflexivity.
  - exists (py "deep "), (py " trip"). reflexivity.
  - intros k f Hin. inversion Hin.
Defined.

(** Table order decides between several matching keys: "sea" and "forest"
    both occur, "sea" comes first in the table. *)
Example pick_background_music_tie :
  pick_background_music ascii_lower (py "A Forest by the Sea")
  = py "background_sound/sea.wav".
Proof. reflexivity. Qed.

Example pick_background_music_empty :
  pick_background_music ascii_lower [] = DEFAULT_BG_MUSIC.
Proof. reflexivity. Qed.

(** ** Running the monad *)

Ltac run_m :=
  unfold mbind, mret, M_bind, M_ret, bind, ret, raise, lift, try_except,
    read_feedback, progress, st_error, read_file, log_request,
    NamedTemporaryFile, write_temp, floordiv in *; simpl in *.

(** ** 3) Fairy tale generation *)

Section Generation.
Context `{!Services}.

(** Whatever the service answers, the request is sent once and the session
    is left as it was. *)
Lemma generate_fairy_tale_run scenario main_character themes language_code w :
  ∃ request,
    chat_log (generate_fairy_tale scenario main_character themes language_code w).2
      = request :: chat_log w
    ∧ chat_model request = py "gpt-4"
    ∧ chat_system request
      = system_template language_code
        ++ (if decide (session_feedback w = Some (py "like")) then like_note
            else if decide (session_feedback w = Some (py "dislike")) then dislike_note
            else [])
    ∧ session_feedback
        (generate_fairy_tale scenario main_character themes language_code w).2
      = session_feedback w.
Proof.
  unfold generate_fairy_tale. run_m.
  eexists. destruct (chat_completions_create _); simpl; split_and!; reflexivity.
Qed.
End Generation.

Lemma feedback_notes_distinct :
  like_note ≠ dislike_note ∧ like_note ≠ [] ∧ dislike_note ≠ [].
Proof. split_and!; discriminate. Qed.

(** C8. For every generation request, the system message handed to the text
    service is the fixed template (with the language code filled in) followed
    by one of three feedback hints chosen by the session's feedback value:
    the maintain-the-style note when it is "like", the change-the-style note
    when it is "dislike", nothing otherwise (in particular when it is None);
    the feedback value is read, not changed, by the generation. *)
Theorem generate_fairy_tale_system_message `{!Services}
    (scenario main_character themes language_code : str) (w : World) :
  let w' := (generate_fairy_tale scenario main_character themes language_code w).2 in
  ∃ request hint,
    chat_log w' = request :: chat_log w
    ∧ chat_system request = system_template language_code ++ hint
    ∧ (session_feedback w = Some (py "like") → hint = like_note)
    ∧ (session_feedback w = Some (py "dislike") → hint = dislike_note)
    ∧ (session_feedback w = None → hint = [])
    ∧ (session_feedback w ≠ Some (py "like") →
       session_feedback w ≠ Some (py "dislike") → hint = [])
    ∧ session_feedback w' = session_feedback w.
Proof.
  intros w'.
  destruct (generate_fairy_tale_run scenario main_character themes language_code w)
    as (request & Hlog & _ & Hsys & Hfb).
  exists request. eexists. split; [exact Hlog|]. split; [exact Hsys|].
  split_and!; [intros Heq..|exact Hfb].
  - by rewrite decide_True.
  - rewrite decide_False, decide_True; [done..|]. rewrite Heq. discriminate.
  - rewrite !decide_False; [done|rewrite Heq; discriminate..].
  - intros Hne. by rewrite !decide_False.
Qed.

(** A session whose last vote was "like": the hint is the maintain-the-style
    note. *)
Lemma generate_fairy_tale_system_message_witness :
  let w := mkWorld (Some (py "like")) [] [] ∅ ∅ [] in
  ∃ request,
    chat_log (@generate_fairy_tale Stub.working
                (py "a lost key") (py "Mira") (py "forest") (py "en") w).2
      = [request]
    ∧ chat_system request = system_template (py "en") ++ like_note.
Proof.
  intros w.
  destruct (@generate_fairy_tale_system_message Stub.working
              (py "a lost key") (py "Mira") (py "forest") (py "en") w)
    as (request & hint & Hlog & Hsys & Hlike & _).
  exists request. split; [exact Hlog|].
  rewrite Hsys. f_equal. apply Hlike. reflexivity.
Defined.

(** ** 4) TTS synthesis *)

Section Synthesis.
Context `{!AudioLib} `{!Services}.

(** C9, as the script has it.  The temporary file made for an uploaded
    voice reference is created with [delete=False] and never removed: when
    the engine loads and the upload decodes, one temporary file holding the
    re-encoded reference is made under a fresh name and it is still there
    when [text_to_speech_coqui] is over, whether the synthesis returns or
    raises.  When the upload does not decode, when the voice reference is
    not an upload, or when the engine does not load, no temporary file is
    made and the temporary files are as before. *)
Theorem text_to_speech_coqui_temp_files
    (story_text language_code : str) (voice_sample_path : VoiceSample) (w : World) :
  let w' := (text_to_speech_coqui story_text language_code voice_sample_path w).2 in
  (∀ data audio_seg,
     voice_sample_path = BytesIO data →
     TTS (py "tts_models/multilingual/multi-dataset/xtts_v2") = Returned () →
     from_file (Some (py "wav")) data = Some audio_seg →
     temp_files w !! fresh (dom (temp_files w)) = None
     ∧ temp_files w'
       = <[fresh (dom (temp_files w)) := export audio_seg]> (temp_files w))
  ∧ (∀ data,
       voice_sample_path = BytesIO data →
       from_file (Some (py "wav")) data = None →
       temp_files w' = temp_files w)
  ∧ (∀ p, voice_sample_path = NotBytesIO p → temp_files w' = temp_files w)
  ∧ (∀ e,
       TTS (py "tts_models/multilingual/multi-dataset/xtts_v2") = Raised e →
       temp_files w' = temp_files w).
Proof.
  intros w'. subst w'. unfold text_to_speech_coqui. split_and!.
  - intros data audio_seg -> Hload Hdecode. run_m. rewrite Hload, Hdecode. simpl.
    split.
    + apply not_elem_of_dom, is_fresh.
    + destruct (tts_to_file _ _ _); simpl; apply insert_insert_eq.
  - intros data -> Hdecode. run_m. rewrite Hdecode.
    by destruct (TTS _).
  - intros p ->. run_m.
    destruct (TTS _); [|done]. by destruct (tts_to_file _ _ _).
  - intros e Hload. run_m. by rewrite Hload.
Qed.
End Synthesis.

(** ** The reference library meets the contract *)

Module RefAudioFacts.
Import RefAudio.

Lemma length_repeat_segment (s : Segment) n :
  length (repeat_segment s n) = n * length s.
Proof.
  unfold repeat_segment. induction n as [|n IH]; simpl; [done|].
  by rewrite length_app, IH.
Qed.

Lemma length_fade_out_segment (s : Segment) ms :
  length (fade_out_segment s ms) = length s.
Proof.
  unfold fade_out_segment.
  rewrite length_app, length_take, length_imap, length_drop. lia.
Qed.

Lemma length_add_samples (s other : Segment) :
  length (add_samples s other) = length s.
Proof.
  revert other. induction s as [|x s IH]; intros [|y other]; simpl; auto.
Qed.

Lemma length_overlay_segment (s other : Segment) position :
  length (overlay_segment s other position) = length s.
Proof.
  unfold overlay_segment.
  rewrite length_app, length_take, length_add_samples, length_drop. lia.
Qed.

Lemma decode_encode (s : Segment) :
  ∃ s', decode (encode s) = Some s' ∧ length s' = length s.
Proof.
  induction s as [|x s (s' & Hs' & Hlen)].
  - by exists [].
  - exists (sample_of (byte_of ((saturate x `mod` 65536) `mod` 256))
                      (byte_of ((saturate x `mod` 65536) `div` 256)) :: s').
    split; [|simpl; by rewrite Hlen].
    change (encode (x :: s)) with (encode_sample x ++ encode s).
    unfold encode_sample. simpl. by rewrite Hs'.
Qed.

Lemma laws : AudioLaws lib.
Proof.
  split; simpl.
  - apply length_repeat_segment.
  - intros s ms. apply length_take.
  - apply length_fade_out_segment.
  - intros s db. unfold gain_segment. apply length_fmap.
  - apply length_overlay_segment.
  - intros s. apply decode_encode.
Qed.
End RefAudioFacts.

(** ** 5) Mixing narration + background *)

Section Mixing.
Context `{!AudioLib}.

(** What [mix_audio_files] does once both inputs decode. *)
Lemma mix_audio_files_run narration_data background_path music_volume_db fade_out_ms
    w narration background_data background :
  from_file (Some (py "wav")) narration_data = Some narration →
  disk w !! background_path = Some background_data →
  from_file None background_data = Some background →
  mix_audio_files narration_data background_path music_volume_db fade_out_ms w
  = if (len background <? len narration)%nat then
      if (len background =? 0)%nat then (Raised ZeroDivisionError, w)
      else
        (Returned
           (export (mixed narration
                      (seg_mul background (len narration / len background + 1))
                      music_volume_db fade_out_ms)),
         (progress 100 w).2)
    else
      (Returned (export (mixed narration background music_volume_db fade_out_ms)),
       (progress 100 w).2).
Proof.
  intros Hn Hdata Hb. unfold mix_audio_files, mixed. run_m.
  rewrite Hn, Hdata, Hb.
  destruct (len background <? len narration)%nat; [|done].
  by destruct (len background =? 0)%nat.
Qed.

(** The ways [mix_audio_files] raises, in the order they are met. *)
Lemma mix_audio_files_raises narration_data background_path music_volume_db
    fade_out_ms w e :
  (mix_audio_files narration_data background_path music_volume_db fade_out_ms w).1
    = Raised e
  ↔ (from_file (Some (py "wav")) narration_data = None ∧ e = DecodeError)
    ∨ (is_Some (from_file (Some (py "wav")) narration_data)
       ∧ disk w !! background_path = None ∧ e = AssetNotFoundError)
    ∨ (∃ background_data,
         is_Some (from_file (Some (py "wav")) narration_data)
         ∧ disk w !! background_path = Some background_data
         ∧ from_file None background_data = None ∧ e = DecodeError)
    ∨ (∃ narration background_data background,
         from_file (Some (py "wav")) narration_data = Some narration
         ∧ disk w !! background_path = Some background_data
         ∧ from_file None background_data = Some background
         ∧ len background = 0 ∧ 0 < len narration ∧ e = ZeroDivisionError).
Proof.
  destruct (from_file (Some (py "wav")) narration_data) as [narration|] eqn:Hn.
  2:{ unfold mix_audio_files. run_m. rewrite Hn. simpl. split.
      - intros [= <-]. by left.
      - intros [[_ ->] | [(Hs & _) | [(? & Hs & _) | (? & ? & ? & ? & _)]]];
          try done; by destruct Hs. }
  destruct (disk w !! background_path) as [background_data|] eqn:Hdata.
  2:{ unfold mix_audio_files. run_m. rewrite Hn, Hdata. simpl. split.
      - intros [= <-]. right; left. eauto.
      - intros [[? _] | [(_ & _ & ->) | [(? & _ & ? & _) | (? & ? & ? & _ & ? & _)]]];
          done. }
  destruct (from_file None background_data) as [background|] eqn:Hb.
  2:{ unfold mix_audio_files. run_m. rewrite Hn, Hdata, Hb. simpl. split.
      - intros [= <-]. right; right; left. exists background_data. eauto.
      - intros [[? _] | [(_ & ? & _) | [(? & _ & _ & _ & ->) | (? & ? & ? & _ & Hd & Hb' & _)]]];
          try done. injection Hd as <-. congruence. }
  rewrite (mix_audio_files_run _ _ _ _ _ _ _ _ Hn Hdata Hb).
  destruct (len background <? len narration)%nat eqn:Hlt.
  - apply Nat.ltb_lt in Hlt.
    destruct (len background =? 0)%nat eqn:Hz; simpl.
    + apply Nat.eqb_eq in Hz. split.
      * intros [= <-]. do 3 right. exists narration, background_data, background.
        split_and!; try done. lia.
      * intros [[? _] | [(_ & ? & _) | [(? & _ & Hd & Hb' & _) | (? & ? & ? & _ & _ & _ & _ & _ & ->)]]];
          try done. injection Hd as <-. congruence.
    + apply Nat.eqb_neq in Hz. split; [done|].
      intros [[? _] | [(_ & ? & _) | [(? & _ & Hd & Hb' & _) | (? & ? & ? & _ & Hd & Hb' & Hlen & _)]]];
        try done; injection Hd as <-; congruence.
  - apply Nat.ltb_ge in Hlt. simpl. split; [done|].
    intros [[? _] | [(_ & ? & _) | [(? & _ & Hd & Hb' & _) | (? & ? & ? & Hn' & Hd & Hb' & Hlen & Hpos & _)]]];
      try done.
    + injection Hd as <-. congruence.
    + injection Hn' as <-. injection Hd as <-. rewrite Hb in Hb'.
      injection Hb' as <-. lia.
Qed.
End Mixing.

(** The repeat count of the loop covers the narration with less than one
    spare copy. *)
Lemma repeat_covers (narration_duration background_len : nat) :
  0 < background_len →
  narration_duration < (narration_duration / background_len + 1) * background_len
  ∧ (narration_duration / background_len + 1) * background_len
    ≤ narration_duration + background_len.
Proof.
  intros Hpos.
  pose proof (Nat.div_mod_eq narration_duration background_len) as Hdiv.
  pose proof (Nat.mod_upper_bound narration_duration background_len) as Hmod.
  nia.
Qed.

Section MixingContract.
Context `{!AudioLib} (laws : AudioLaws _).

(** The background that goes into the overlay lasts as long as the
    narration as soon as the looped background is not shorter. *)
Lemma len_prepared_background (narration looped : AudioSegment) music_volume_db fade_out_ms :
  len narration ≤ len looped →
  len (apply_gain (fade_out (seg_slice_to looped (len narration)) fade_out_ms)
                  music_volume_db)
  = len narration.
Proof.
  intros Hle. rewrite len_apply_gain, len_fade_out, len_slice_to. lia.
Qed.


(** C2. When the background is shorter than the narration (B < D), it is
    repeated exactly floor(D / B) + 1 times, which makes a looped
    background longer than D by at most one copy; when B >= D it is not
    repeated.  In both cases what is faded and mixed is the (looped)
    background cut to its first D milliseconds. *)
Theorem mix_audio_files_looping narration_data background_path music_volume_db
    fade_out_ms w narration background_data background :
  from_file (Some (py "wav")) narration_data = Some narration →
  disk w !! background_path = Some background_data →
  from_file None background_data = Some background →
  (0 < len background < len narration →
     let times_to_repeat := len narration / len background + 1 in
     let looped := seg_mul background times_to_repeat in
     (mix_audio_files narration_data background_path music_volume_db fade_out_ms w).1
       = Returned (export
           (overlay
              (apply_gain
                 (fade_out (seg_slice_to looped (len narration)) fade_out_ms)
                 music_volume_db)
              narration 0))
     ∧ len looped = times_to_repeat * len background
     ∧ len narration < len looped ≤ len narration + len background
     ∧ len (seg_slice_to looped (len narration)) = len narration)
  ∧ (len narration ≤ len background →
     (mix_audio_files narration_data background_path music_volume_db fade_out_ms w).1
       = Returned (export
           (overlay
              (apply_gain
                 (fade_out (seg_slice_to background (len narration)) fade_out_ms)
                 music_volume_db)
              narration 0))
     ∧ len (seg_slice_to background (len narration)) = len narration).
Proof.
  intros Hn Hdata Hb.
  rewrite (mix_audio_files_run _ _ _ _ _ _ _ _ Hn Hdata Hb). split.
  - intros [Hpos Hlt] times_to_repeat looped.
    apply Nat.ltb_lt in Hlt as Hltb. rewrite Hltb.
    assert ((len background =? 0)%nat = false) as -> by (apply Nat.eqb_neq; lia).
    pose proof (repeat_covers (len narration) (len background) Hpos) as Hcover.
    assert (len looped = times_to_repeat * len background) as Hlen
      by apply len_mul.
    split_and!; [done|exact Hlen|subst times_to_repeat; lia..|].
    rewrite len_slice_to. subst times_to_repeat. lia.
  - intros Hle. apply Nat.ltb_ge in Hle as Hltb. rewrite Hltb.
    split; [done|]. rewrite len_slice_to. lia.
Qed.
End MixingContract.


(** The same run: the asset of two milliseconds is repeated 5 // 2 + 1 = 3
    times, six milliseconds in all, then cut to five. *)
Lemma mix_audio_files_looping_witness :
  (@mix_audio_files RefAudio.lib (RefAudio.encode [1; 2; 3; 4; 5]%Z)
     (py "background_sound/space.wav")
     default_music_volume_db default_fade_out_ms Stub.world).1
    = Returned (RefAudio.encode
        (RefAudio.overlay_segment
           (RefAudio.gain_segment
              (RefAudio.fade_out_segment
                 (take 5 (RefAudio.repeat_segment [100; 200]%Z 3))
                 default_fade_out_ms)
              default_music_volume_db)
           [1; 2; 3; 4; 5]%Z 0))
  ∧ length (RefAudio.repeat_segment [100; 200]%Z 3) = 3 * 2.
Proof.
  assert (RefAudio.decode (RefAudio.encode [1; 2; 3; 4; 5]%Z) = Some [1; 2; 3; 4; 5]%Z)
    as Hn by (vm_compute; reflexivity).
  assert (disk Stub.world !! py "background_sound/space.wav"
          = Some (RefAudio.encode [100; 200]%Z)) as Hdata by (vm_compute; reflexivity).
  assert (RefAudio.decode (RefAudio.encode [100; 200]%Z) = Some [100; 200]%Z)
    as Hb by (vm_compute; reflexivity).
  destruct (proj1 (@mix_audio_files_looping RefAudio.lib RefAudioFacts.laws
                     (RefAudio.encode [1; 2; 3; 4; 5]%Z) (py "background_sound/space.wav")
                     default_music_volume_db default_fade_out_ms Stub.world
                     [1; 2; 3; 4; 5]%Z (RefAudio.encode [100; 200]%Z) [100; 200]%Z
                     Hn Hdata Hb))
    as (Hmix & Hlen & _).
  - simpl. lia.
  - split; [exact Hmix | exact Hlen].
Defined.

(** The scenario of the spec: a background of ten milliseconds under a
    narration of four is not repeated, and is cut to its first four. *)
Example mix_audio_files_longer_background :
  let w := mkWorld None [] [] {[ py "bg.wav" := RefAudio.encode [1; 2; 3; 4; 5; 6; 7; 8; 9; 10]%Z ]} ∅ [] in
  (@mix_audio_files RefAudio.lib (RefAudio.encode [7; 7; 7; 7]%Z) (py "bg.wav") 0 0 w).1
  = Returned (RefAudio.encode [8; 9; 10; 11]%Z).
Proof. vm_compute. reflexivity. Qed.

(** C6. [mix_audio_files] is deterministic: its result, returned bytes or
    exception, is a function of the narration bytes, the content of the
    background asset, the volume and the fade length.  Two invocations with
    the same arguments, in whatever states of the session, of the progress
    bar and of the other files, give the same bytes. *)
Theorem mix_audio_files_deterministic `{!AudioLib}
    (narration_data : bytes) (background_path : str)
    (music_volume_db : Q) (fade_out_ms : nat) (w1 w2 : World) :
  disk w1 !! background_path = disk w2 !! background_path →
  (mix_audio_files narration_data background_path music_volume_db fade_out_ms w1).1
  = (mix_audio_files narration_data background_path music_volume_db fade_out_ms w2).1.
Proof.
  intros Hdisk. unfold mix_audio_files. run_m. rewrite Hdisk.
  destruct (from_file (Some (py "wav")) narration_data) as [narration|]; [|done].
  destruct (disk w2 !! background_path) as [background_data|]; [|done].
  destruct (from_file None background_data) as [background|]; [|done].
  destruct (len background <? len narration)%nat; [|done].
  by destruct (len background =? 0)%nat.
Qed.

(** Two sessions that differ in feedback, progress and messages but hold the
    same asset. *)
Lemma mix_audio_files_deterministic_witness :
  let w2 := mkWorld (Some (py "like")) [90; 75] [py "earlier message"]
              (disk Stub.world) {[ 0 := [Byte.x00] ]} [] in
  (@mix_audio_files RefAudio.lib (RefAudio.encode [1; 2; 3; 4; 5]%Z)
     (py "background_sound/space.wav") default_music_volume_db 3 Stub.world).1
  = (@mix_audio_files RefAudio.lib (RefAudio.encode [1; 2; 3; 4; 5]%Z)
       (py "background_sound/space.wav") default_music_volume_db 3 w2).1.
Proof.
  intros w2.
  apply (@mix_audio_files_deterministic RefAudio.lib). reflexivity.
Defined.

(** C10. [mix_audio_files] is not total on backgrounds of no duration: when
    the background asset decodes to a buffer of zero milliseconds and the
    narration lasts longer, the floor division by the background's length
    raises a division-by-zero error, which is neither of the two documented
    errors; nothing is returned and the world is left as it was. *)
Theorem mix_audio_files_zero_length_background `{!AudioLib}
    narration_data background_path music_volume_db fade_out_ms
    w narration background_data background :
  from_file (Some (py "wav")) narration_data = Some narration →
  disk w !! background_path = Some background_data →
  from_file None background_data = Some background →
  len background = 0 →
  0 < len narration →
  mix_audio_files narration_data background_path music_volume_db fade_out_ms w
    = (Raised ZeroDivisionError, w)
  ∧ ZeroDivisionError ≠ DecodeError
  ∧ ZeroDivisionError ≠ AssetNotFoundError.
Proof.
  intros Hn Hdata Hb Hzero Hpos.
  rewrite (mix_audio_files_run _ _ _ _ _ _ _ _ Hn Hdata Hb), Hzero.
  assert ((0 <? len narration)%nat = true) as -> by (apply Nat.ltb_lt; lia).
  done.
Qed.

(** A narration of one millisecond over the asset of none. *)
Lemma mix_audio_files_zero_length_background_witness :
  @mix_audio_files RefAudio.lib (RefAudio.encode [1]%Z)
    (py "background_sound/silence.wav")
    default_music_volume_db default_fade_out_ms Stub.world
  = (Raised ZeroDivisionError, Stub.world).
Proof.
  apply (@mix_audio_files_zero_length_background RefAudio.lib
           (RefAudio.encode [1]%Z) (py "background_sound/silence.wav")
           default_music_volume_db default_fade_out_ms Stub.world
           [1]%Z [] []).
  - vm_compute. reflexivity.
  - vm_compute. reflexivity.
  - vm_compute. reflexivity.
  - reflexivity.
  - simpl. lia.
Defined.

(** C5. The documented errors of [mix_audio_files] are a decode error when an
    input is not a well-formed container and a not-found error when the asset
    path does not exist, and no others.  The script does not keep to that: on
    this input both the narration and the asset decode, the asset exists, and
    the call raises a division-by-zero error. *)
Theorem mix_audio_files_undocumented_error :
  RefAudio.decode (RefAudio.encode [1]%Z) = Some [1]%Z
  ∧ disk Stub.world !! py "background_sound/silence.wav" = Some (RefAudio.encode [])
  ∧ RefAudio.decode (RefAudio.encode []) = Some []
  ∧ (@mix_audio_files RefAudio.lib (RefAudio.encode [1]%Z)
       (py "background_sound/silence.wav")
       default_music_volume_db default_fade_out_ms Stub.world).1
    = Raised ZeroDivisionError.
Proof. split_and!; vm_compute; reflexivity. Qed.

(** The documented errors at work: a narration that does not decode, a path
    that does not exist. *)
Example mix_audio_files_decode_error :
  (@mix_audio_files RefAudio.lib [Byte.x01] (py "background_sound/space.wav")
     default_music_volume_db default_fade_out_ms Stub.world).1
  = Raised DecodeError.
Proof. vm_compute. reflexivity. Qed.

Example mix_audio_files_asset_not_found :
  (@mix_audio_files RefAudio.lib (RefAudio.encode [1]%Z) (py "background_sound/sea.wav")
     default_music_volume_db default_fade_out_ms Stub.world).1
  = Raised AssetNotFoundError.
Proof. vm_compute. reflexivity. Qed.

(** ** The temporary file of the narration requester *)

(** C9 does not hold of the script: after a successful run on an uploaded
    voice reference, the temporary file made for it is still there. *)
Lemma temp_file_left_behind :
  ¬ @temp_files_cleaned_up RefAudio.lib Stub.working
      (py "Once upon a time") (py "en") (BytesIO (RefAudio.encode [1; 2]%Z))
      Stub.world.
Proof.
  intros Hclean. specialize (Hclean 0 eq_refl).
  vm_compute in Hclean. discriminate Hclean.
Qed.

(** A run whose synthesis fails: nothing is returned, and the temporary file
    holding the re-encoded upload stays. *)
Lemma text_to_speech_coqui_temp_files_witness :
  let run := @text_to_speech_coqui RefAudio.lib Stub.failing_synthesis
               (py "Once upon a time") (py "en")
               (BytesIO (RefAudio.encode [1; 2]%Z)) Stub.world in
  run.1 = Returned None
  ∧ temp_files Stub.world !! fresh (dom (temp_files Stub.world)) = None
  ∧ temp_files run.2
    = <[fresh (dom (temp_files Stub.world)) := RefAudio.encode [1; 2]%Z]>
        (temp_files Stub.world).
Proof.
  intros run. split; [vm_compute; reflexivity|].
  apply (proj1 (@text_to_speech_coqui_temp_files RefAudio.lib Stub.failing_synthesis
                  (py "Once upon a time") (py "en")
                  (BytesIO (RefAudio.encode [1; 2]%Z)) Stub.world)
           (RefAudio.encode [1; 2]%Z) [1; 2]%Z).
  - reflexivity.
  - reflexivity.
  - vm_compute. reflexivity.
Defined.

(** ** The fade-out of the reference library *)

Module RefFade.
Import RefAudio.




End RefFade.

(** * Further properties of the script *)

(** ** What one call of each stage does to the world *)

Section Stages.
Context `{!AudioLib} `{!Services}.

(** [generate_fairy_tale] always returns; it sends one request, and either
    hands back the answer or reports one error. *)
Lemma generate_fairy_tale_inv scenario main_character themes language_code w o w' :
  generate_fairy_tale scenario main_character themes language_code w = (o, w') →
  session_feedback w' = session_feedback w
  ∧ disk w' = disk w
  ∧ temp_files w' = temp_files w
  ∧ (∃ request,
       chat_log w' = request :: chat_log w
       ∧ chat_model request = py "gpt-4"
       ∧ chat_system request
         = system_template language_code
           ++ (if decide (session_feedback w = Some (py "like")) then like_note
               else if decide (session_feedback w = Some (py "dislike"))
                    then dislike_note else [])
       ∧ ((∃ story,
             chat_completions_create request = Returned story
             ∧ o = Returned (Some story)
             ∧ error_log w' = error_log w
             ∧ progress_log w' = 66 :: 33 :: progress_log w)
          ∨ (∃ e,
               chat_completions_create request = Raised e
               ∧ o = Returned None
               ∧ error_log w'
                 = (py "An error occurred while generating the fairy tale: " ++ exn_text e)
                   :: error_log w
               ∧ progress_log w' = 33 :: progress_log w))).
Proof.
  unfold generate_fairy_tale. run_m.
  destruct (chat_completions_create _) as [story|e] eqn:Hcall; simpl;
    intros [= <- <-]; simpl; split_and!; try reflexivity;
    eexists; (split; [reflexivity|]); (split; [reflexivity|]); (split; [reflexivity|]).
  - left. exists story. by rewrite Hcall.
  - right. exists e. by rewrite Hcall.
Qed.

(** [text_to_speech_coqui] always returns; it makes at most one temporary
    file, and either hands back audio or reports one error. *)
Lemma text_to_speech_coqui_inv story_text language_code voice_sample_path w o w' :
  text_to_speech_coqui story_text language_code voice_sample_path w = (o, w') →
  session_feedback w' = session_feedback w
  ∧ disk w' = disk w
  ∧ chat_log w' = chat_log w
  ∧ (temp_files w' = temp_files w
     ∨ (∃ data audio_seg,
          voice_sample_path = BytesIO data
          ∧ from_file (Some (py "wav")) data = Some audio_seg
          ∧ temp_files w'
            = <[fresh (dom (temp_files w)) := export audio_seg]> (temp_files w)))
  ∧ ((∃ audio,
        o = Returned (Some audio)
        ∧ error_log w' = error_log w
        ∧ progress_log w' = 90 :: 75 :: progress_log w)
     ∨ (o = Returned None
        ∧ (∃ msg, error_log w' = msg :: error_log w)
        ∧ (progress_log w' = progress_log w
           ∨ progress_log w' = 75 :: progress_log w))).
Proof.
  unfold text_to_speech_coqui. run_m.
  destruct (TTS _) as [[]|e0]; simpl.
  2:{ intros [= <- <-]; simpl. split_and!; try reflexivity; [by left|].
      right. split_and!; [done|eauto|by left]. }
  destruct voice_sample_path as [data|p].
  - destruct (from_file (Some (py "wav")) data) as [audio_seg|] eqn:Hdecode; simpl.
    + destruct (tts_to_file _ _ _) as [audio|e]; simpl; intros [= <- <-]; simpl;
        (split_and!; try reflexivity;
         [right; exists data, audio_seg; split_and!; [done..|apply insert_insert_eq]|]).
      * left. eauto.
      * right. split_and!; [done|eauto|by right].
    + intros [= <- <-]; simpl. split_and!; try reflexivity; [by left|].
      right. split_and!; [done|eauto|by right].
  - destruct (tts_to_file _ _ _) as [audio|e]; simpl; intros [= <- <-]; simpl;
      (split_and!; try reflexivity; [by left|]).
    + left. eauto.
    + right. split_and!; [done|eauto|by right].
Qed.

(** [mix_audio_files] reports progress when it returns and touches nothing
    when it raises. *)
Lemma mix_audio_files_inv narration_data background_path music_volume_db fade_out_ms
    w o w' :
  mix_audio_files narration_data background_path music_volume_db fade_out_ms w = (o, w') →
  (∃ data, o = Returned data ∧ w' = (progress 100 w).2)
  ∨ (∃ e, o = Raised e ∧ w' = w).
Proof.
  unfold mix_audio_files. run_m.
  destruct (from_file (Some (py "wav")) narration_data) as [narration|]; simpl;
    [|intros [= <- <-]; right; eauto].
  destruct (disk w !! background_path) as [background_data|]; simpl;
    [|intros [= <- <-]; right; eauto].
  destruct (from_file None background_data) as [background|]; simpl;
    [|intros [= <- <-]; right; eauto].
  destruct (len background <? len narration)%nat; simpl;
    [|intros [= <- <-]; left; eauto].
  destruct (len background =? 0)%nat; simpl; intros [= <- <-]; [right|left]; eauto.
Qed.
End Stages.

(** ** The theme resolver, continued *)

Lemma THEME_MUSIC_MAP_not_default k f :
  (k, f) ∈ THEME_MUSIC_MAP → f ≠ DEFAULT_BG_MUSIC.
Proof.
  unfold THEME_MUSIC_MAP. rewrite !elem_of_cons, elem_of_nil.
  intros H. repeat destruct H as [H|H]; try done; by injection H as _ ->.
Qed.

(** X1. [pick_background_music] only ever returns the default track or a
    track of the table, and it returns the default track exactly when no
    keyword of the table occurs in the lowered theme. *)
Theorem pick_background_music_default_iff (lower : str → str) (theme : str) :
  pick_background_music lower theme ∈ DEFAULT_BG_MUSIC :: THEME_MUSIC_MAP.*2
  ∧ (pick_background_music lower theme = DEFAULT_BG_MUSIC
     ↔ ∀ k f, (k, f) ∈ THEME_MUSIC_MAP → ¬ substring_of k (lower theme)).
Proof.
  unfold pick_background_music.
  destruct (scan_items_cases THEME_MUSIC_MAP (lower theme))
    as [(before & key & mf & after & Htable & Hkey & Hbefore & Hres) | [Hnone Hres]].
  - assert ((key, mf) ∈ THEME_MUSIC_MAP) as Hin.
    { rewrite Htable. apply elem_of_app. right. left. }
    split.
    + right. rewrite Hres. apply list_elem_of_fmap. by exists (key, mf).
    + rewrite Hres. split.
      * intros Hdef. by apply THEME_MUSIC_MAP_not_default in Hin.
      * intros Hnone. by destruct (Hnone key mf Hin).
  - split; [rewrite Hres; left|]. by rewrite Hres.
Qed.

(** X2. Every preset of the theme radio other than "Other" is a keyword of
    the table and resolves to the track the table gives it; a custom theme
    left empty resolves to the default track.  [str.lower] enters through
    what it does on ASCII text: it maps A-Z to a-z and keeps the rest. *)
Theorem pick_background_music_presets (lower : str → str) :
  (∀ s, Forall (λ c, (c < 128)%N) s → lower s = ascii_lower s) →
  (∀ option,
     option ∈ theme_options → option ≠ py "Other" →
     ∃ music_file,
       dict_get THEME_MUSIC_MAP option = Some music_file
       ∧ pick_background_music lower option = music_file)
  ∧ pick_background_music lower [] = DEFAULT_BG_MUSIC.
Proof.
  intros Hlower. split.
  - intros option Hin Hother. unfold theme_options in Hin.
    rewrite !elem_of_cons, elem_of_nil in Hin.
    unfold pick_background_music.
    repeat destruct Hin as [-> | Hin]; try done;
      (rewrite Hlower by (repeat constructor); eexists; split; vm_compute; reflexivity).
  - unfold pick_background_music. by rewrite Hlower by constructor.
Qed.

(** The presets under the ASCII lower-casing itself. *)
Lemma pick_background_music_presets_witness :
  ∃ music_file,
    dict_get THEME_MUSIC_MAP (py "sci-fi") = Some music_file
    ∧ pick_background_music ascii_lower (py "sci-fi") = music_file.
Proof.
  apply (proj1 (pick_background_music_presets ascii_lower (λ s _, eq_refl))).
  - unfold theme_options. do 5 right. left.
  - discriminate.
Defined.

(** ** The mixer, continued *)

Section MixerEdges.
Context `{!AudioLib}.


(** X4. [mix_audio_files] reports the last progress step exactly when it
    returns the mix; when it raises, the session, the progress bar and the
    files are all as before the call. *)
Theorem mix_audio_files_progress narration_data background_path music_volume_db
    fade_out_ms w :
  (∃ data,
     mix_audio_files narration_data background_path music_volume_db fade_out_ms w
     = (Returned data,
        mkWorld (session_feedback w) (100 :: progress_log w) (error_log w)
                (disk w) (temp_files w) (chat_log w)))
  ∨ (∃ e,
       mix_audio_files narration_data background_path music_volume_db fade_out_ms w
       = (Raised e, w)).
Proof.
  destruct (mix_audio_files narration_data background_path music_volume_db fade_out_ms w)
    as [o w'] eqn:Hrun.
  apply mix_audio_files_inv in Hrun as [(data & -> & ->) | (e & -> & ->)]; eauto.
Qed.
End MixerEdges.


Section MixerReturns.
Context `{!AudioLib} (laws : AudioLaws _).


(** X5. A narration of no duration is mixed without error over any asset
    that decodes, an asset of no duration included (the loop is not entered,
    so nothing is divided): the mix returned has no duration either. *)
Theorem mix_audio_files_empty_narration narration_data background_path music_volume_db
    fade_out_ms w narration background_data background :
  from_file (Some (py "wav")) narration_data = Some narration →
  disk w !! background_path = Some background_data →
  from_file None background_data = Some background →
  len narration = 0 →
  ∃ final_mix out,
    (mix_audio_files narration_data background_path music_volume_db fade_out_ms w).1
      = Returned (export final_mix)
    ∧ len final_mix = 0
    ∧ from_file (Some (py "wav")) (export final_mix) = Some out
    ∧ len out = 0.
Proof.
  intros Hn Hdata Hb Hzero.
  rewrite (mix_audio_files_run _ _ _ _ _ _ _ _ Hn Hdata Hb), Hzero. simpl.
  destruct (export_decodes (mixed narration background music_volume_db fade_out_ms))
    as (out & Hout & Hlen).
  assert (len (mixed narration background music_volume_db fade_out_ms) = 0) as Hmixed.
  { unfold mixed. rewrite len_overlay, (len_prepared_background laws); [done|lia]. }
  eexists _, out. split_and!; [reflexivity|done|done|lia].
Qed.
End MixerReturns.

(** An empty narration over the asset of no duration. *)
Lemma mix_audio_files_empty_narration_witness :
  ∃ final_mix out,
    (@mix_audio_files RefAudio.lib (RefAudio.encode [])
       (py "background_sound/silence.wav")
       default_music_volume_db default_fade_out_ms Stub.world).1
      = Returned (RefAudio.encode final_mix)
    ∧ length final_mix = 0
    ∧ RefAudio.decode (RefAudio.encode final_mix) = Some out
    ∧ length out = 0.
Proof.
  apply (@mix_audio_files_empty_narration RefAudio.lib RefAudioFacts.laws
           (RefAudio.encode []) (py "background_sound/silence.wav")
           default_music_volume_db default_fade_out_ms Stub.world [] [] []).
  - reflexivity.
  - vm_compute. reflexivity.
  - reflexivity.
  - reflexivity.
Defined.

(** ** The two requesters, continued *)

Section Requesters.
Context `{!AudioLib} `{!Services}.


(** X7. [text_to_speech_coqui] never raises: it returns audio or None.  It
    returns audio exactly when the engine loads and the synthesis returns
    that audio for the speaker reference the function hands over, which is
    the given path when the voice sample is not an upload, and otherwise the
    name of the fresh temporary file holding the re-encoded upload: an upload
    that does not decode never reaches the engine.  Exactly when it returns
    None, one error is reported. *)
Theorem text_to_speech_coqui_outcome
    (story_text language_code : str) (voice_sample_path : VoiceSample) (w : World) :
  let r := text_to_speech_coqui story_text language_code voice_sample_path w in
  (∀ audio,
     r.1 = Returned (Some audio)
     ↔ TTS (py "tts_models/multilingual/multi-dataset/xtts_v2") = Returned ()
       ∧ ∃ speaker,
           tts_to_file story_text speaker language_code = Returned audio
           ∧ ((∃ p, voice_sample_path = NotBytesIO p ∧ speaker = GivenPath p)
              ∨ (∃ data audio_seg,
                   voice_sample_path = BytesIO data
                   ∧ from_file (Some (py "wav")) data = Some audio_seg
                   ∧ speaker = TempFile (fresh (dom (temp_files w))))))
  ∧ ((∃ audio, r.1 = Returned (Some audio) ∧ error_log r.2 = error_log w)
     ∨ (r.1 = Returned None ∧ ∃ msg, error_log r.2 = msg :: error_log w)).
Proof.
  intros r. subst r. unfold text_to_speech_coqui. run_m.
  destruct (TTS _) as [[]|e0] eqn:Hload; simpl.
  2:{ split; [|right; eauto]. intros audio. split; [done|]. by intros [? _]. }
  destruct voice_sample_path as [data|p].
  - destruct (from_file (Some (py "wav")) data) as [audio_seg|] eqn:Hdecode; simpl.
    + destruct (tts_to_file story_text (TempFile _) language_code) as [audio0|e] eqn:Hsyn;
        simpl.
      * split; [|left; eauto]. intros audio. split.
        -- intros [= <-]. split; [done|]. eexists. split; [exact Hsyn|].
           right. eauto.
        -- intros (_ & speaker & Hsp & [(p & [=] & _) | (d & s & [= <-] & _ & ->)]).
           rewrite Hsyn in Hsp. by injection Hsp as <-.
      * split; [|right; eauto]. intros audio. split; [done|].
        intros (_ & speaker & Hsp & [(p & [=] & _) | (d & s & [= <-] & _ & ->)]).
        by rewrite Hsyn in Hsp.
    + split; [|right; eauto]. intros audio. split; [done|].
      intros (_ & speaker & _ & [(p & [=] & _) | (d & s & [= <-] & Hd & _)]).
      by rewrite Hdecode in Hd.
  - destruct (tts_to_file story_text (GivenPath p) language_code) as [audio0|e] eqn:Hsyn;
      simpl.
    + split; [|left; eauto]. intros audio. split.
      * intros [= <-]. split; [done|]. eexists. split; [exact Hsyn|]. left. eauto.
      * intros (_ & speaker & Hsp & [(p' & [= <-] & ->) | (d & s & [=] & _)]).
        rewrite Hsyn in Hsp. by injection Hsp as <-.
    + split; [|right; eauto]. intros audio. split; [done|].
      intros (_ & speaker & Hsp & [(p' & [= <-] & ->) | (d & s & [=] & _)]).
      by rewrite Hsyn in Hsp.
Qed.
End Requesters.

(** ** The app *)

Section AppRuns.
Context `{!AudioLib} `{!Services}.
Variable lower : str → str.

Ltac run_app :=
  unfold script, main, vote_buttons, mbind, mret, MA_bind, MA_ret, bindA, retA,
    in_world, show;
  cbn [app_world app_page fst snd].

(** The vote buttons always return; they change the feedback value and add
    their messages to the page, nothing else. *)
Lemma vote_buttons_run i s :
  ∃ msgs,
    vote_buttons i s
    = (Returned (),
       mkApp (mkWorld (voted_feedback i (session_feedback (app_world s)))
                (progress_log (app_world s)) (error_log (app_world s))
                (disk (app_world s)) (temp_files (app_world s))
                (chat_log (app_world s)))
             (msgs ++ app_page s))
    ∧ (∀ x, x ∈ msgs → (∃ t, x = Success t) ∨ (∃ t, x = Warning t)).
Proof.
  destruct s as [[fb pl el dk tf cl] page].
  unfold voted_feedback. run_app. unfold set_feedback. simpl.
  destruct (in_like i), (in_dislike i); simpl.
  - eexists [_; _]. split; [reflexivity|]. intros x Hx.
    apply elem_of_cons in Hx as [-> | Hx]; [right; eauto|].
    apply list_elem_of_singleton in Hx as ->. left; eauto.
  - eexists [_]. split; [reflexivity|]. intros x Hx.
    apply list_elem_of_singleton in Hx as ->. left; eauto.
  - eexists [_]. split; [reflexivity|]. intros x Hx.
    apply list_elem_of_singleton in Hx as ->. right; eauto.
  - exists []. split; [reflexivity|]. intros x Hx. by apply elem_of_nil in Hx.
Qed.

(** One run, stage by stage. *)
Lemma script_run i w :
  script lower i w
  = let w0 := mkWorld (session_feedback w) (0 :: progress_log w) (error_log w)
                (disk w) (temp_files w) (chat_log w) in
    let page0 := [ Subheader (py "Optional: Upload a Voice Example");
                   Title (py "Multilingual Fairy Tale Generator with Feedback") ] in
    if in_generate i then
      match generate_fairy_tale (in_scenario i) (in_main_character i)
              (final_theme_of i) (language_code_of i) w0 with
      | (Returned (Some (c :: rest)), w1) =>
          let page1 :=
            Write (c :: rest)
            :: Subheader (py "AI-Generated Fairy Tale (" ++ language_of i ++ py ")")
            :: page0 in
          match text_to_speech_coqui (c :: rest) (language_code_of i)
                  (match in_voice_file i with
                   | Some data => BytesIO data
                   | None => NotBytesIO (Some (py "Islam.wav"))
                   end) w1 with
          | (Returned (Some (b :: d)), w2) =>
              match mix_audio_files (b :: d)
                      (pick_background_music lower (final_theme_of i))
                      default_music_volume_db default_fade_out_ms w2 with
              | (Returned data, w3) =>
                  vote_buttons i
                    (mkApp w3
                       (DownloadButton (py "Download Narrated Fairy Tale") data
                          (py "narrated_fairy_tale.wav")
                        :: Audio data
                        :: Subheader (py "Final Narrated Fairy Tale with Background Music")
                        :: page1))
              | (Raised e, w3) => (Raised e, mkApp w3 page1)
              end
          | (Returned _, w2) => vote_buttons i (mkApp w2 page1)
          | (Raised e, w2) => (Raised e, mkApp w2 page1)
          end
      | (Returned _, w1) => (Returned (), mkApp w1 page0)
      | (Raised e, w1) => (Raised e, mkApp w1 page0)
      end
    else (Returned (), mkApp w0 page0).
Proof.
  cbv zeta. run_app. unfold final_theme_of, language_code_of, language_of, progress.
  cbn [app_world app_page fst snd].
  destruct (in_generate i); [|reflexivity].
  assert ((if decide (in_selected_theme i = py "Other")
           then if decide (in_selected_theme i = py "Other")
                then in_custom_theme i else []
           else in_selected_theme i)
          = (if decide (in_selected_theme i = py "Other")
             then in_custom_theme i else in_selected_theme i)) as ->
    by (by destruct (decide (in_selected_theme i = py "Other"))).
  destruct (generate_fairy_tale _ _ _ _ _) as [[[[|c rest]|]|e1] w1];
    cbn [app_world app_page fst snd]; try reflexivity.
  destruct (text_to_speech_coqui _ _ _ _) as [[[[|b d]|]|e2] w2];
    cbn [app_world app_page fst snd]; try reflexivity.
  destruct (mix_audio_files _ _ _ _ _) as [[data|e3] w3];
    cbn [app_world app_page fst snd]; reflexivity.
Qed.

(** The runs of the script, by what each stage did. *)
Ltac script_cases i w :=
  rewrite (script_run i w); cbv zeta;
  destruct (in_generate i) eqn:Hgenerate;
  [ destruct (generate_fairy_tale _ _ _ _ _) as [o1 w1] eqn:Hgen;
    apply generate_fairy_tale_inv in Hgen
      as (Hfb1 & Hdisk1 & Htemp1 & request & Hlog1 & Hmodel & Hsys & Hcase1);
    destruct Hcase1 as [(story & Hcall & -> & Herr1 & Hprog1)
                       | (e1 & Hcall & -> & Herr1 & Hprog1)];
    [ destruct story as [|c rest];
      [ |
        destruct (text_to_speech_coqui _ _ _ _) as [o2 w2] eqn:Htts;
        pose proof Htts as Htts';
        apply text_to_speech_coqui_inv in Htts
          as (Hfb2 & Hdisk2 & Hlog2 & Htemp2 & Hcase2);
        destruct Hcase2 as [(audio & -> & Herr2 & Hprog2) | (-> & Herr2 & Hprog2)];
        [ destruct audio as [|b d];
          [ |
            destruct (mix_audio_files _ _ _ _ _) as [o3 w3] eqn:Hmix;
            pose proof Hmix as Hmix';
            apply mix_audio_files_inv in Hmix' as [(data & -> & ->) | (e3 & -> & ->)] ]
        | ] ]
    | ]
  | ];
  try (match goal with
       | |- context [vote_buttons i ?s] =>
           destruct (vote_buttons_run i s) as (msgs & -> & Hmsgs)
       end);
  cbn [app_world app_page fst snd session_feedback progress_log error_log disk
       temp_files chat_log progress] in *.


(** An element of a page given by its items. *)
Ltac page_mem :=
  rewrite ?elem_of_app, ?elem_of_cons; auto 10.

(** No audio among the vote messages and the headings. *)
Ltac no_audio H :=
  first [ rewrite elem_of_app in H; destruct H as [H|H];
          [ match goal with
            | Hm : context [Success] |- _ =>
                apply Hm in H as [[? H]|[? H]]; discriminate H
            end | ]
        | idtac ];
  rewrite ?elem_of_cons, ?elem_of_nil in H; intuition discriminate.


(** X9. The progress bar only moves forward within a run: the steps reported
    are an initial part of 0, 33, 66, 75, 90, 100, and the last step, 100, is
    reported exactly in the runs that put the mixed audio on the page. *)
Theorem script_progress (i : Inputs) (w : World) :
  let r := script lower i w in
  ∃ steps,
    progress_log (app_world r.2) = steps ++ progress_log w
    ∧ steps ∈ [ [0]; [33; 0]; [66; 33; 0]; [75; 66; 33; 0];
                [90; 75; 66; 33; 0]; [100; 90; 75; 66; 33; 0] ]
    ∧ ((∃ data, Audio data ∈ app_page r.2) ↔ steps = [100; 90; 75; 66; 33; 0]).
Proof.
  intros r. subst r. script_cases i w.
  all: try (destruct Hprog2 as [Hprog2|Hprog2]).
  all: first
    [ exists [100; 90; 75; 66; 33; 0]; split; [simpl; congruence|];
      split; [page_mem|]; split; [done|]; intros _; exists data; page_mem
    | exists [90; 75; 66; 33; 0]; split; [simpl; congruence|]
    | exists [75; 66; 33; 0]; split; [simpl; congruence|]
    | exists [66; 33; 0]; split; [simpl; congruence|]
    | exists [33; 0]; split; [simpl; congruence|]
    | exists [0]; split; [simpl; congruence|] ].
  all: split; [page_mem|]; split; [|discriminate].
  all: intros [data0 Hin]; exfalso; no_audio Hin.
Qed.

(** The selectbox choice is an item of [LANGUAGE_MAP], so the lookup of its
    code cannot miss. *)
Lemma language_code_lookup (i : Inputs) :
  in_language_ok i →
  ∃ language code,
    LANGUAGE_MAP !! in_language i = Some (language, code)
    ∧ language_of i = language
    ∧ language_code_of i = code.
Proof.
  unfold in_language_ok, language_code_of, language_of. simpl.
  destruct (in_language i) as [|[|[|[|[|n]]]]]; intros Hlt; try lia;
    eexists _, _; split_and!; reflexivity.
Qed.

(** X10. In a run with the generate button pressed exactly one request goes
    to the text service.  Its system message is the template for the code
    that [LANGUAGE_MAP] gives the chosen language, followed by the hint for
    the feedback value the session had before the run: a vote cast in the
    same run does not reach this request.  Without the generate button no
    request is sent. *)
Theorem script_request (i : Inputs) (w : World) :
  in_language_ok i →
  let r := script lower i w in
  (in_generate i = true →
   ∃ language code request,
     LANGUAGE_MAP !! in_language i = Some (language, code)
     ∧ chat_log (app_world r.2) = request :: chat_log w
     ∧ chat_model request = py "gpt-4"
     ∧ chat_system request = system_template code ++ hint_for (session_feedback w))
  ∧ (in_generate i = false → chat_log (app_world r.2) = chat_log w).
Proof.
  intros Hok r. subst r.
  destruct (language_code_lookup i Hok) as (language & code & Hlookup & _ & <-).
  script_cases i w.
  all: split; [intros Hpressed|done]; try discriminate Hpressed.
  all: exists language, (language_code_of i), request; unfold hint_for;
         split_and!; [done|congruence|done|done].
Qed.

(** X11. When the text service fails, the run ends quietly after the first
    stage: [main] returns, the page shows the headings only, one error is
    reported, the progress bar stops at 33, no temporary file is made and the
    feedback value stays, whatever the vote buttons report. *)
Theorem script_generation_failure (i : Inputs) (w : World) (e : Exn) :
  (∀ request, chat_completions_create request = Raised e) →
  in_generate i = true →
  let r := script lower i w in
  r.1 = Returned ()
  ∧ app_page r.2
    = [ Subheader (py "Optional: Upload a Voice Example");
        Title (py "Multilingual Fairy Tale Generator with Feedback") ]
  ∧ error_log (app_world r.2)
    = (py "An error occurred while generating the fairy tale: " ++ exn_text e)
      :: error_log w
  ∧ progress_log (app_world r.2) = 33 :: 0 :: progress_log w
  ∧ temp_files (app_world r.2) = temp_files w
  ∧ session_feedback (app_world r.2) = session_feedback w.
Proof.
  intros Hdown Hpressed r. subst r. script_cases i w; try congruence.
  rewrite Hdown in Hcall. injection Hcall as <-. by split_and!.
Qed.

(** X12. [main] raises only when the mixer does.  Then the exception is a
    decode error, a not-found error or a division by zero; the story is
    already on the page, no audio is, the progress bar stands at 90 and the
    votes of the run are lost: the feedback value is as before the run. *)
Theorem script_raises (i : Inputs) (w : World) (e : Exn) :
  let r := script lower i w in
  r.1 = Raised e →
  (e = DecodeError ∨ e = AssetNotFoundError ∨ e = ZeroDivisionError)
  ∧ (∃ story,
       app_page r.2
       = [ Write story;
           Subheader (py "AI-Generated Fairy Tale (" ++ language_of i ++ py ")");
           Subheader (py "Optional: Upload a Voice Example");
           Title (py "Multilingual Fairy Tale Generator with Feedback") ])
  ∧ progress_log (app_world r.2) = 90 :: 75 :: 66 :: 33 :: 0 :: progress_log w
  ∧ session_feedback (app_world r.2) = session_feedback w.
Proof.
  intros r. subst r. script_cases i w; try done.
  intros [= ->]. split_and!; [|eauto|congruence..].
  assert ((mix_audio_files (b :: d) (pick_background_music lower (final_theme_of i))
             default_music_volume_db default_fade_out_ms w2).1 = Raised e) as He
    by (by rewrite Hmix).
  apply mix_audio_files_raises in He.
  destruct He as [[_ ->] | [(_ & _ & ->) | [(? & _ & _ & _ & ->) | (? & ? & ? & _ & _ & _ & _ & _ & ->)]]];
    auto.
Qed.

(** X13. A run never writes or removes a named file and never removes a
    temporary file.  It makes at most one temporary file, and only when a
    voice sample was uploaded and decodes: the file then holds the re-encoded
    sample and stays after the run. *)
Theorem script_files (i : Inputs) (w : World) :
  let r := script lower i w in
  disk (app_world r.2) = disk w
  ∧ temp_files w ⊆ temp_files (app_world r.2)
  ∧ (temp_files (app_world r.2) = temp_files w
     ∨ ∃ data audio_seg,
         in_voice_file i = Some data
         ∧ from_file (Some (py "wav")) data = Some audio_seg
         ∧ temp_files (app_world r.2)
           = <[fresh (dom (temp_files w)) := export audio_seg]> (temp_files w)).
Proof.
  intros r. subst r.
  assert (∀ w2 : World,
            (temp_files w2 = temp_files w
             ∨ ∃ data audio_seg,
                 in_voice_file i = Some data
                 ∧ from_file (Some (py "wav")) data = Some audio_seg
                 ∧ temp_files w2
                   = <[fresh (dom (temp_files w)) := export audio_seg]> (temp_files w)) →
            temp_files w ⊆ temp_files w2) as Hgrow.
  { intros w2 [-> | (data & seg & _ & _ & ->)]; [done|].
    apply insert_subseteq, not_elem_of_dom, is_fresh. }
  assert (∀ w1 w2 : World,
            temp_files w1 = temp_files w →
            (temp_files w2 = temp_files w1
             ∨ ∃ data audio_seg,
                 match in_voice_file i with
                 | Some data0 => BytesIO data0
                 | None => NotBytesIO (Some (py "Islam.wav"))
                 end = BytesIO data
                 ∧ from_file (Some (py "wav")) data = Some audio_seg
                 ∧ temp_files w2
                   = <[fresh (dom (temp_files w1)) := export audio_seg]> (temp_files w1)) →
            temp_files w2 = temp_files w
            ∨ ∃ data audio_seg,
                in_voice_file i = Some data
                ∧ from_file (Some (py "wav")) data = Some audio_seg
                ∧ temp_files w2
                  = <[fresh (dom (temp_files w)) := export audio_seg]> (temp_files w))
    as Hstep.
  { intros w1 w2 H1 [H2 | (data & seg & Hvoice & Hseg & H2)].
    - left. congruence.
    - right. exists data, seg. rewrite H1 in H2.
      destruct (in_voice_file i); [injection Hvoice as ->|discriminate]. done. }
  script_cases i w.
  all: try (pose proof (Hstep _ _ Htemp1 Htemp2) as Hfiles).
  all: split; [congruence|].
  all: split; [apply Hgrow|]; first [exact Hfiles | left; congruence].
Qed.

Section AppAudio.
Context (laws : AudioLaws _).

End AppAudio.
End AppRuns.

(** An English run: the request carries the template for "en" and, the
    session having no feedback yet, no hint. *)
Lemma script_request_witness :
  ∃ language code request,
    LANGUAGE_MAP !! 0 = Some (language, code)
    ∧ chat_log (app_world
                  (@script RefAudio.lib Stub.working ascii_lower
                     StubApp.visit Stub.world).2)
      = request :: chat_log Stub.world
    ∧ chat_model request = py "gpt-4"
    ∧ chat_system request
      = system_template code ++ hint_for (session_feedback Stub.world).
Proof.
  apply (proj1 (@script_request RefAudio.lib Stub.working ascii_lower
                  StubApp.visit Stub.world
                  ltac:(unfold in_language_ok; simpl; lia))).
  reflexivity.
Defined.

(** The text service is down: the run stops after the first stage. *)
Lemma script_generation_failure_witness :
  let r := @script RefAudio.lib StubApp.failing_generation ascii_lower
             StubApp.visit Stub.world in
  r.1 = Returned ()
  ∧ app_page r.2
    = [ Subheader (py "Optional: Upload a Voice Example");
        Title (py "Multilingual Fairy Tale Generator with Feedback") ]
  ∧ error_log (app_world r.2)
    = (py "An error occurred while generating the fairy tale: "
       ++ exn_text (ServiceError (py "service unavailable")))
      :: error_log Stub.world
  ∧ progress_log (app_world r.2) = 33 :: 0 :: progress_log Stub.world
  ∧ temp_files (app_world r.2) = temp_files Stub.world
  ∧ session_feedback (app_world r.2) = session_feedback Stub.world.
Proof.
  apply (@script_generation_failure RefAudio.lib StubApp.failing_generation
           ascii_lower StubApp.visit Stub.world
           (ServiceError (py "service unavailable"))).
  - intros request. reflexivity.
  - reflexivity.
Defined.

(** A custom theme that resolves to the sea track, which is not on disk: the
    mixer raises, after the story was shown and the upload re-encoded. *)
Lemma script_raises_witness :
  let r := @script RefAudio.lib Stub.working ascii_lower
             StubApp.visit_sea Stub.world in
  (AssetNotFoundError = DecodeError ∨ AssetNotFoundError = AssetNotFoundError
   ∨ AssetNotFoundError = ZeroDivisionError)
  ∧ (∃ story,
       app_page r.2
       = [ Write story;
           Subheader (py "AI-Generated Fairy Tale ("
                      ++ language_of StubApp.visit_sea ++ py ")");
           Subheader (py "Optional: Upload a Voice Example");
           Title (py "Multilingual Fairy Tale Generator with Feedback") ])
  ∧ progress_log (app_world r.2)
    = 90 :: 75 :: 66 :: 33 :: 0 :: progress_log Stub.world
  ∧ session_feedback (app_world r.2) = session_feedback Stub.world.
Proof.
  apply (@script_raises RefAudio.lib Stub.working ascii_lower
           StubApp.visit_sea Stub.world AssetNotFoundError).
  vm_compute. reflexivity.
Defined.

